(** * Firebase Remote Config (server side): a shallow embedding of
    [firebase_admin/remote_config.py] and the properties of its template
    life cycle, evaluation and typed accessors. *)

From stdpp Require Import base option gmap strings list fin_maps.
From Stdlib Require Import ZArith String.

Local Open Scope string_scope.
Set Warnings "-register-all".

(** ** Python values and exceptions *)

(** The values the module handles are the ones [json] decodes a response
    body into (floats left out): [None], booleans, integers, strings, lists
    and string-keyed dictionaries. *)
Inductive value : Type :=
| VNone
| VBool (b : bool)
| VInt (z : Z)
| VStr (s : string)
| VList (l : list value)
| VDict (d : gmap string value).

(** The exceptions the module's own statements can raise.  [AttributeError]
    carries the type name of the receiver and the attribute asked for,
    [KeyError] the key; [FetchError] stands for whatever the transport
    raises. *)
Inductive exception : Type :=
| AttributeError (type_name attr : string)
| KeyError (key : string)
| TypeError (msg : string)
| ValueError (msg : string)
| FetchError (msg : string).

(** A computation either returns or raises. *)
Inductive result (A : Type) : Type :=
| Ok (a : A)
| Raise (e : exception).
Arguments Ok {A} a.
Arguments Raise {A} e.

Definition bind {A B} (r : result A) (k : A -> result B) : result B :=
  match r with
  | Ok a => k a
  | Raise e => Raise e
  end.

Declare Scope py_scope.
Delimit Scope py_scope with py.
Notation "x <- c1 ;; c2" := (bind c1 (fun x => c2))
  (at level 100, c1 at next level, right associativity) : py_scope.
Local Open Scope py_scope.

Definition returns {A} (r : result A) : bool :=
  match r with Ok _ => true | Raise _ => false end.

(** [type(v).__name__] *)
Definition type_name_of (v : value) : string :=
  match v with
  | VNone => "NoneType"
  | VBool _ => "bool"
  | VInt _ => "int"
  | VStr _ => "str"
  | VList _ => "list"
  | VDict _ => "dict"
  end.

(** [obj[key]] with a string key: a dictionary looks the key up and raises
    [KeyError] when it is missing; the other types raise [TypeError]. *)
Definition getitem (obj : value) (key : string) : result value :=
  match obj with
  | VDict d =>
      match d !! key with
      | Some v => Ok v
      | None => Raise (KeyError key)
      end
  | VList _ => Raise (TypeError "list indices must be integers or slices, not str")
  | VStr _ => Raise (TypeError "string indices must be integers, not 'str'")
  | v => Raise (TypeError ("'" ++ type_name_of v ++ "' object is not subscriptable"))
  end.

(** [bool(v)]: Python's truth value testing. *)
Definition py_bool (v : value) : bool :=
  match v with
  | VNone => false
  | VBool b => b
  | VInt z => negb (z =? 0)%Z
  | VStr s => negb (String.eqb s "")
  | VList l => negb (Nat.eqb (List.length l) 0)
  | VDict d => negb (Nat.eqb (size d) 0)
  end.

(** ** Collaborators outside the module *)

(** [firebase_admin.App], as far as the module reads it: [app.project_id],
    [app.credential.get_credential()] and [app.options]. *)
Record Credential := { get_credential : string }.

Record App := {
  project_id : string;
  credential : Credential;
  options : gmap string value;
}.

(** [dict.get(key, default)] *)
Definition dict_get {V} (d : gmap string V) (key : string) (default : V) : V :=
  match d !! key with
  | Some v => v
  | None => default
  end.

(** [_http_client.JsonHttpClient], built from keyword arguments. *)
Module JsonHttpClient.
Record t := {
  credential : string;
  base_url : string;
  headers : gmap string string;
  timeout : value;
}.
End JsonHttpClient.

(** What the Python runtime supplies: the builtins [str] and [int] and
    [json.dumps] on a [Dict[str, str]] (an association list, in insertion
    order).  Only [bool] is needed in closed form, see [py_bool]. *)
Class Builtins := {
  py_str : value -> string;
  py_int : value -> result Z;
  json_dumps : list (string * string) -> string;
}.

(** What the rest of the SDK supplies: [firebase_admin.__version__],
    [_http_client.DEFAULT_TIMEOUT_SECONDS] and the transport,
    [JsonHttpClient.headers_and_body(method, url)], which answers with the
    response headers and the decoded JSON body or raises. *)
Class Sdk := {
  __version__ : string;
  DEFAULT_TIMEOUT_SECONDS : value;
  headers_and_body :
    JsonHttpClient.t -> string -> string -> result (gmap string string * value);
}.

Definition _REMOTE_CONFIG_ATTRIBUTE : string := "_remoteconfig".

(** Modelled from the spec: [_utils.get_app_service] is not part of the
    module; the spec describes it as the global app-registry lookup
    (singleton pattern) that hands back the service registered for the app
    under [name], which is the one [initializer] builds from the app. *)
Definition get_app_service {S} (app : App) (name : string) (initializer : App -> S) : S :=
  initializer app.

(** ** class ServerTemplateData *)

Module ServerTemplateData.
Record t := {
  _parameters : value;
  _conditions : value;
  _version : value;
  _parameter_groups : value;
  _etag : option string;
}.

Definition __init__ (headers : gmap string string) (response_json : value) : result t :=
  parameters <- getitem response_json "parameters";;
  conditions <- getitem response_json "conditions";;
  version <- getitem response_json "version";;
  parameter_groups <- getitem response_json "parameterGroups";;
  Ok {| _parameters := parameters;
        _conditions := conditions;
        _version := version;
        _parameter_groups := parameter_groups;
        _etag := headers !! "ETag" |}.

Definition parameters (self : t) : value := _parameters self.
Definition etag (self : t) : option string := _etag self.
Definition version (self : t) : value := _version self.
Definition conditions (self : t) : value := _conditions self.
Definition parameter_groups (self : t) : value := _parameter_groups self.
End ServerTemplateData.

(** An arbitrary Python object, as far as this module tells objects apart:
    an instance of [ServerTemplateData] or some other value. *)
Inductive object : Type :=
| OValue (v : value)
| OTemplateData (t : ServerTemplateData.t).

Definition None_ : object := OValue VNone.

Definition is_not_None (o : object) : bool :=
  match o with
  | OValue VNone => false
  | _ => true
  end.

Definition object_type_name (o : object) : string :=
  match o with
  | OValue v => type_name_of v
  | OTemplateData _ => "ServerTemplateData"
  end.

(** [isinstance(o, ServerTemplateData)] *)
Definition isinstance_ServerTemplateData (o : object) : bool :=
  match o with
  | OTemplateData _ => true
  | OValue _ => false
  end.

(** [o.conditions]: the property of [ServerTemplateData]; no other value
    has the attribute. *)
Definition getattr_conditions (o : object) : result value :=
  match o with
  | OTemplateData t => Ok (ServerTemplateData.conditions t)
  | OValue v => Raise (AttributeError (type_name_of v) "conditions")
  end.

(** [await o]: neither kind of object is awaitable. *)
Definition await (o : object) : result object :=
  Raise (TypeError ("object " ++ object_type_name o ++ " can't be used in 'await' expression")).

(** ** class _RemoteConfigService *)

Module _RemoteConfigService.
Record t := {
  _project_id : string;
  _client : JsonHttpClient.t;
}.

Section Methods.
Context `{!Sdk}.

Definition __init__ (app : App) : t :=
  let remote_config_base_url := "https://firebaseremoteconfig.googleapis.com" in
  let app_credential := get_credential (credential app) in
  let rc_headers : gmap string string :=
    {[ "X-FIREBASE-CLIENT" := "fire-admin-python/" ++ __version__ ]} in
  let timeout := dict_get (options app) "httpTimeout" DEFAULT_TIMEOUT_SECONDS in
  {| _project_id := project_id app;
     _client := {| JsonHttpClient.credential := app_credential;
                   JsonHttpClient.base_url := remote_config_base_url;
                   JsonHttpClient.headers := rc_headers;
                   JsonHttpClient.timeout := timeout |} |}.

(** Returns the project prefix for the url, [/v1/projects/${projectId}]. *)
Definition _get_url_prefix (self : t) : string :=
  "/v1/projects/" ++ _project_id self.

(** The path the source writes: its string literal is continued over
    two lines with a backslash, so the indentation of the second line
    (63 blanks) is part of the string. *)
Definition server_template_path : string :=
  "/namespaces/ "
  ++ "                                                               "
  ++ "firebase-server/serverRemoteConfig".

Definition get_server_template (self : t) : result ServerTemplateData.t :=
  let url_prefix := _get_url_prefix self in
  response <-
    headers_and_body (_client self) "get" (url_prefix ++ server_template_path);;
  let (headers, response_json) := response in
  ServerTemplateData.__init__ headers response_json.

(** *** Attribute access on an instance

    What [self.<name>] finds: the two instance attributes set by
    [__init__] and the three functions of the class body, as bound
    methods.  (The attributes every Python object has, [__class__],
    [__dict__] and so on, are left out.) *)
Inductive method : Type :=
| M__init__
| Mget_server_template
| M_get_url_prefix.

Inductive attribute : Type :=
| A_project_id (s : string)
| A_client (c : JsonHttpClient.t)
| ABound (m : method).

Definition getattr (self : t) (name : string) : result attribute :=
  if String.eqb name "_project_id" then Ok (A_project_id (_project_id self))
  else if String.eqb name "_client" then Ok (A_client (_client self))
  else if String.eqb name "__init__" then Ok (ABound M__init__)
  else if String.eqb name "get_server_template" then Ok (ABound Mget_server_template)
  else if String.eqb name "_get_url_prefix" then Ok (ABound M_get_url_prefix)
  else Raise (AttributeError "_RemoteConfigService" name).

(** [a()]: calling an attribute with no argument. *)
Definition call (self : t) (a : attribute) : result object :=
  match a with
  | A_project_id _ => Raise (TypeError "'str' object is not callable")
  | A_client _ => Raise (TypeError "'JsonHttpClient' object is not callable")
  | ABound M__init__ =>
      Raise (TypeError "__init__() missing 1 required positional argument: 'app'")
  | ABound Mget_server_template =>
      data <- get_server_template self;; Ok (OTemplateData data)
  | ABound M_get_url_prefix => Ok (OValue (VStr (_get_url_prefix self)))
  end.
End Methods.
End _RemoteConfigService.

(** ** class _ConditionEvaluator *)

Module _ConditionEvaluator.
Record t := {
  _context : value;
  _conditions : value;
}.

Definition __init__ (context conditions : value) : t :=
  {| _context := context; _conditions := conditions |}.

(** The body of the source is [return {}]. *)
Definition evaluate (self : t) : gmap string value := ∅.
End _ConditionEvaluator.

(** ** class ServerConfig *)

Module ServerConfig.
(** dictionary of param key to values *)
Record t := { _config_values : gmap string value }.

Definition __init__ (config_values : gmap string value) : t :=
  {| _config_values := config_values |}.

Definition get_value (self : t) (key : string) : result value :=
  match _config_values self !! key with
  | Some v => Ok v
  | None => Raise (KeyError key)
  end.

Section Accessors.
Context `{!Builtins}.

Definition get_boolean (self : t) (key : string) : result bool :=
  v <- get_value self key;; Ok (py_bool v).

Definition get_string (self : t) (key : string) : result string :=
  v <- get_value self key;; Ok (py_str v).

Definition get_int (self : t) (key : string) : result Z :=
  v <- get_value self key;; py_int v.
End Accessors.
End ServerConfig.

(** ** class ServerTemplate *)

Module ServerTemplate.
(** [_cache] holds whatever object was last assigned to it, [None] at
    first; [_evaluator] is an attribute only once [evaluate] has run. *)
Record t := {
  _rc_service : _RemoteConfigService.t;
  _cache : object;
  _stringified_default_config : option string;
  _evaluator : option _ConditionEvaluator.t;
}.

Definition with_cache (self : t) (o : object) : t :=
  {| _rc_service := _rc_service self;
     _cache := o;
     _stringified_default_config := _stringified_default_config self;
     _evaluator := _evaluator self |}.

Definition with_evaluator (self : t) (e : _ConditionEvaluator.t) : t :=
  {| _rc_service := _rc_service self;
     _cache := _cache self;
     _stringified_default_config := _stringified_default_config self;
     _evaluator := Some e |}.

(** A method runs on [self] and hands back its outcome together with
    [self] as the method left it. *)
Definition M (A : Type) : Type := t -> result A * t.

Section Methods.
Context `{!Sdk} `{!Builtins}.

Definition __init__ (app : App) (default_config : option (list (string * string))) : t :=
  {| _rc_service :=
       get_app_service app _REMOTE_CONFIG_ATTRIBUTE _RemoteConfigService.__init__;
     _cache := None_;
     _stringified_default_config :=
       match default_config with
       | Some cfg => Some (json_dumps cfg)
       | None => None
       end;
     _evaluator := None |}.

(** [self._cache = await self._rc_service.getServerTemplate()] *)
Definition load : M unit := fun self =>
  let fetched :=
    getServerTemplate <- _RemoteConfigService.getattr (_rc_service self) "getServerTemplate";;
    coro <- _RemoteConfigService.call (_rc_service self) getServerTemplate;;
    await coro in
  match fetched with
  | Ok data => (Ok tt, with_cache self data)
  | Raise e => (Raise e, self)
  end.

(** The evaluator's constructor is declared [__init__(self, context,
    conditions)] and called here with the conditions first. *)
Definition evaluate (context : value) : M ServerConfig.t := fun self =>
  match getattr_conditions (_cache self) with
  | Ok conditions =>
      let evaluator := _ConditionEvaluator.__init__ conditions context in
      (Ok (ServerConfig.__init__ (_ConditionEvaluator.evaluate evaluator)),
       with_evaluator self evaluator)
  | Raise e => (Raise e, self)
  end.

Definition set (template : object) : M unit := fun self =>
  if isinstance_ServerTemplateData template
  then (Ok tt, with_cache self template)
  else (Ok tt, self).
End Methods.
End ServerTemplate.

(** ** Module-level functions *)

Section Api.
Context `{!Sdk} `{!Builtins}.

Definition init_server_template (app : App)
    (default_config : option (list (string * string)))
    (template_data : object) : ServerTemplate.t :=
  let template := ServerTemplate.__init__ app default_config in
  if is_not_None template_data
  then snd (ServerTemplate.set template_data template)
  else template.

(** [async def]: the model runs the coroutine to its end. *)
Definition get_server_template (app : App)
    (default_config : option (list (string * string))) : result ServerTemplate.t :=
  let template := init_server_template app default_config None_ in
  let (loaded, template) := ServerTemplate.load template in
  _ <- loaded;;
  Ok template.
End Api.

(** ** Life-cycle states, as the spec names them *)

Inductive lifecycle : Type := EMPTY | LOADED.

Definition state_of (template : ServerTemplate.t) : lifecycle :=
  match ServerTemplate._cache template with
  | OTemplateData _ => LOADED
  | OValue _ => EMPTY
  end.

(** ** Sample data

    Concrete inputs on which the model is run below.  [sample_builtins]
    follows Python on [None], booleans and strings and is a stand-in
    elsewhere; it only serves to run the accessors, no statement depends on
    what it answers. *)

Definition sample_builtins : Builtins :=
  {| py_str := fun v =>
       match v with
       | VStr s => s
       | VBool true => "True"
       | VBool false => "False"
       | VNone => "None"
       | v => "<" ++ type_name_of v ++ ">"
       end;
     py_int := fun v =>
       match v with
       | VInt z => Ok z
       | VBool b => Ok (if b then 1 else 0)%Z
       | VStr _ => Raise (ValueError "invalid literal for int() with base 10")
       | _ => Raise (TypeError "int() argument must be a string or a real number")
       end;
     json_dumps := fun _ => "{}" |}.

(** A transport whose backend answers every request with the template of
    the spec's scenario and an [ETag] header. *)
Definition welcome_parameters : value :=
  VDict {[ "welcome_msg" := VDict {[ "default" := VStr "hi" ]} ]}.

Definition welcome_body : gmap string value :=
  {[ "parameters" := welcome_parameters;
     "conditions" := VList [];
     "version" := VDict ∅;
     "parameterGroups" := VDict ∅ ]}.

Definition sample_sdk : Sdk :=
  {| __version__ := "6.5.0";
     DEFAULT_TIMEOUT_SECONDS := VInt 120;
     headers_and_body := fun _ _ _ => Ok ({[ "ETag" := "etag-1" ]}, VDict welcome_body) |}.

Definition sample_app : App :=
  {| project_id := "demo-project";
     credential := {| get_credential := "token" |};
     options := ∅ |}.

(** The template of the scenario [{parameters: {"welcome_msg": {default:
    "hi"}}, conditions: []}]. *)
Definition welcome_template : ServerTemplateData.t :=
  {| ServerTemplateData._parameters := welcome_parameters;
     ServerTemplateData._conditions := VList [];
     ServerTemplateData._version := VDict ∅;
     ServerTemplateData._parameter_groups := VDict ∅;
     ServerTemplateData._etag := Some "etag-1" |}.

(** Two named conditions whose expressions are an AND and an OR over no
    children. *)
Definition empty_combinators : value :=
  VList [ VDict {[ "name" := VStr "all_of_nothing";
                   "expression" := VDict {[ "and" := VList [] ]} ]};
          VDict {[ "name" := VStr "any_of_nothing";
                   "expression" := VDict {[ "or" := VList [] ]} ]} ].

(** The fields [ServerTemplateData.__init__] reads from the body, in the
    order it reads them. *)
Definition required_fields : list string :=
  ["parameters"; "conditions"; "version"; "parameterGroups"].

(** A transport whose backend cannot be reached. *)
Definition unreachable_sdk : Sdk :=
  {| __version__ := "6.5.0";
     DEFAULT_TIMEOUT_SECONDS := VInt 120;
     headers_and_body := fun _ _ _ => Raise (FetchError "503 Service Unavailable") |}.

(** A transport whose backend answers with a body that lacks "version". *)
Definition versionless_sdk : Sdk :=
  {| __version__ := "6.5.0";
     DEFAULT_TIMEOUT_SECONDS := VInt 120;
     headers_and_body := fun _ _ _ => Ok (∅, VDict (delete "version" welcome_body)) |}.


(** ** The request and sequences of calls *)

(** The url [_RemoteConfigService.get_server_template] hands to the
    transport. *)
Definition server_template_url (self : _RemoteConfigService.t) : string :=
  _RemoteConfigService._get_url_prefix self ++ _RemoteConfigService.server_template_path.

(** The path as the url comment of the source intends it, without the
    blanks of the continued literal. *)
Definition intended_template_path : string :=
  "/namespaces/firebase-server/serverRemoteConfig".

Definition is_dict (v : value) : bool :=
  match v with
  | VDict _ => true
  | _ => false
  end.

(** A caller's use of one template: calls of [set], [evaluate] and [load]
    in any order, each exception caught by the caller, who goes on with
    the template as the call left it. *)
Inductive template_call : Type :=
| CallSet (template : object)
| CallEvaluate (context : value)
| CallLoad.

Section Calls.
Context `{!Sdk}.

Definition perform (c : template_call) (self : ServerTemplate.t) : ServerTemplate.t :=
  match c with
  | CallSet template => snd (ServerTemplate.set template self)
  | CallEvaluate context => snd (ServerTemplate.evaluate context self)
  | CallLoad => snd (ServerTemplate.load self)
  end.

Definition perform_all (cs : list template_call) (self : ServerTemplate.t) : ServerTemplate.t :=
  fold_left (fun template c => perform c template) cs self.
End Calls.

(** The last [ServerTemplateData] handed to [set] among the calls, or
    [cache] when there is none. *)
Definition last_accepted (cs : list template_call) (cache : object) : object :=
  fold_left
    (fun kept c =>
       match c with
       | CallSet (OTemplateData t) => OTemplateData t
       | _ => kept
       end)
    cs cache.

(** * Properties *)

(** ** Helper facts *)

Lemma bind_Ok {A B} (a : A) (k : A -> result B) : bind (Ok a) k = k a.
Proof. reflexivity. Qed.

Lemma bind_Raise {A B} (e : exception) (k : A -> result B) : bind (Raise e) k = Raise e.
Proof. reflexivity. Qed.

Lemma getitem_present (d : gmap string value) key v :
  d !! key = Some v -> getitem (VDict d) key = Ok v.
Proof. intros H. cbn. now rewrite H. Qed.

Lemma getitem_missing (d : gmap string value) key :
  d !! key = None -> getitem (VDict d) key = Raise (KeyError key).
Proof. intros H. cbn. now rewrite H. Qed.

Lemma get_value_present cfg key v :
  ServerConfig._config_values cfg !! key = Some v ->
  ServerConfig.get_value cfg key = Ok v.
Proof. intros H. unfold ServerConfig.get_value. now rewrite H. Qed.

Lemma get_value_missing cfg key :
  ServerConfig._config_values cfg !! key = None ->
  ServerConfig.get_value cfg key = Raise (KeyError key).
Proof. intros H. unfold ServerConfig.get_value. now rewrite H. Qed.

Lemma get_value_empty key :
  ServerConfig.get_value (ServerConfig.__init__ ∅) key = Raise (KeyError key).
Proof. apply get_value_missing. cbn. apply lookup_empty. Qed.

(** Once a template is cached, [evaluate] returns the configuration built
    on the evaluator's empty dictionary and records the evaluator it made,
    with the arguments in the order of the call. *)
Lemma evaluate_cached self t context :
  ServerTemplate._cache self = OTemplateData t ->
  ServerTemplate.evaluate context self =
    (Ok (ServerConfig.__init__ ∅),
     ServerTemplate.with_evaluator self
       {| _ConditionEvaluator._context := ServerTemplateData.conditions t;
          _ConditionEvaluator._conditions := context |}).
Proof. intros H. unfold ServerTemplate.evaluate. now rewrite H. Qed.

Lemma set_template_data self t :
  ServerTemplate.set (OTemplateData t) self =
    (Ok tt, ServerTemplate.with_cache self (OTemplateData t)).
Proof. reflexivity. Qed.

Lemma set_other_value self v :
  ServerTemplate.set (OValue v) self = (Ok tt, self).
Proof. reflexivity. Qed.

Section ServiceFacts.
Context `{!Sdk}.

(** The service has no attribute named [getServerTemplate]. *)
Lemma getattr_getServerTemplate svc :
  _RemoteConfigService.getattr svc "getServerTemplate" =
    Raise (AttributeError "_RemoteConfigService" "getServerTemplate").
Proof. reflexivity. Qed.

(** [load] raises at the attribute lookup and leaves the template as it
    was. *)
Lemma load_raises self :
  ServerTemplate.load self =
    (Raise (AttributeError "_RemoteConfigService" "getServerTemplate"), self).
Proof. reflexivity. Qed.

(** The method the class does define, [get_server_template], is a plain
    function: what it returns cannot be awaited either. *)
Lemma await_get_server_template_raises svc :
  returns (m <- _RemoteConfigService.getattr svc "get_server_template";;
           r <- _RemoteConfigService.call svc m;;
           await r) = false.
Proof.
  cbn. destruct (_RemoteConfigService.get_server_template svc); reflexivity.
Qed.
End ServiceFacts.

(** ** The template life cycle *)

(** C2.  On a template whose cache is still [None] (no [load], no accepted
    [set]), [evaluate] raises for every context and returns no
    configuration: reading [.conditions] off the absent cache fails, which
    is how the module reports that no template is available; the template
    itself is left as it was. *)
Theorem evaluate_without_template_raises (self : ServerTemplate.t) (context : value) :
  ServerTemplate._cache self = None_ ->
  ServerTemplate.evaluate context self
    = (Raise (AttributeError "NoneType" "conditions"), self)
  /\ returns (fst (ServerTemplate.evaluate context self)) = false.
Proof.
  intros Hcache. unfold ServerTemplate.evaluate.
  rewrite Hcache. cbn. split; reflexivity.
Qed.

Lemma evaluate_without_template_raises_witness :
  ServerTemplate._cache (@ServerTemplate.__init__ sample_sdk sample_builtins sample_app None)
    = None_
  /\ (ServerTemplate.evaluate (VDict ∅)
        (@ServerTemplate.__init__ sample_sdk sample_builtins sample_app None)
      = (Raise (AttributeError "NoneType" "conditions"),
         @ServerTemplate.__init__ sample_sdk sample_builtins sample_app None)
      /\ returns (fst (ServerTemplate.evaluate (VDict ∅)
           (@ServerTemplate.__init__ sample_sdk sample_builtins sample_app None))) = false).
Proof.
  split.
  - reflexivity.
  - apply (evaluate_without_template_raises
             (@ServerTemplate.__init__ sample_sdk sample_builtins sample_app None)
             (VDict ∅)).
    reflexivity.
Defined.

(** C3.  [set] never raises.  Given a [ServerTemplateData] it makes exactly
    that object the cache (the template is then LOADED) and touches nothing
    else; given any other value it leaves the template as it was. *)
Theorem set_accepts_only_template_data (self : ServerTemplate.t) :
  (forall t : ServerTemplateData.t,
      exists self',
        ServerTemplate.set (OTemplateData t) self = (Ok tt, self')
        /\ ServerTemplate._cache self' = OTemplateData t
        /\ state_of self' = LOADED
        /\ ServerTemplate._rc_service self' = ServerTemplate._rc_service self
        /\ ServerTemplate._stringified_default_config self'
           = ServerTemplate._stringified_default_config self
        /\ ServerTemplate._evaluator self' = ServerTemplate._evaluator self)
  /\ (forall v : value, ServerTemplate.set (OValue v) self = (Ok tt, self)).
Proof.
  split.
  - intros t. eexists. rewrite set_template_data.
    repeat split; reflexivity.
  - intros v. apply set_other_value.
Qed.

Section ApiFacts.
Context `{!Sdk} `{!Builtins}.

Lemma init_cache app default_config :
  ServerTemplate._cache (ServerTemplate.__init__ app default_config) = None_.
Proof. reflexivity. Qed.

(** A value that is neither [None] nor template data is passed to [set]
    and dropped there. *)
Lemma init_server_template_other_value app default_config v :
  init_server_template app default_config (OValue v)
  = ServerTemplate.__init__ app default_config.
Proof. unfold init_server_template. destruct v; reflexivity. Qed.

(** C6 (what the code does).  [get_server_template] never returns a
    template: [load] asks the service for [getServerTemplate], the class
    only defines [get_server_template], and the [AttributeError] of that
    lookup is all the caller gets, whatever the backend would answer. *)
Theorem get_server_template_raises app default_config :
  get_server_template app default_config
  = Raise (AttributeError "_RemoteConfigService" "getServerTemplate")
  /\ fst (ServerTemplate.load (init_server_template app default_config None_))
     = Raise (AttributeError "_RemoteConfigService" "getServerTemplate")
  /\ state_of (snd (ServerTemplate.load (init_server_template app default_config None_)))
     = EMPTY.
Proof.
  unfold get_server_template. rewrite load_raises. cbn.
  repeat split; reflexivity.
Qed.
End ApiFacts.

(** C7.  [init_server_template] given a [ServerTemplateData] returns a
    LOADED template whose cache is that object; given no template data it
    returns an EMPTY one.  Neither involves the transport: the result is
    the same whatever [headers_and_body] would answer. *)
Theorem init_server_template_seeds_cache
    (sdk : Sdk) (builtins : Builtins) (app : App)
    (default_config : option (list (string * string))) :
  (forall t : ServerTemplateData.t,
      ServerTemplate._cache (init_server_template app default_config (OTemplateData t))
      = OTemplateData t
      /\ state_of (init_server_template app default_config (OTemplateData t)) = LOADED)
  /\ (ServerTemplate._cache (init_server_template app default_config None_) = None_
      /\ state_of (init_server_template app default_config None_) = EMPTY)
  /\ (forall (template_data : object) transport,
        @init_server_template
          {| __version__ := @__version__ sdk;
             DEFAULT_TIMEOUT_SECONDS := @DEFAULT_TIMEOUT_SECONDS sdk;
             headers_and_body := transport |}
          builtins app default_config template_data
        = @init_server_template sdk builtins app default_config template_data).
Proof.
  split; [| split].
  - intros t. split; reflexivity.
  - split; reflexivity.
  - intros template_data transport. reflexivity.
Qed.

(** ** Building template data from a response *)

(** [ServerTemplateData.__init__] on a JSON object reads the four fields
    one after the other and stops at the first that is missing. *)
Lemma template_data_init_dict headers (body : gmap string value) :
  ServerTemplateData.__init__ headers (VDict body) =
    match body !! "parameters", body !! "conditions",
          body !! "version", body !! "parameterGroups" with
    | Some p, Some c, Some v, Some g =>
        Ok {| ServerTemplateData._parameters := p;
              ServerTemplateData._conditions := c;
              ServerTemplateData._version := v;
              ServerTemplateData._parameter_groups := g;
              ServerTemplateData._etag := headers !! "ETag" |}
    | None, _, _, _ => Raise (KeyError "parameters")
    | Some _, None, _, _ => Raise (KeyError "conditions")
    | Some _, Some _, None, _ => Raise (KeyError "version")
    | Some _, Some _, Some _, None => Raise (KeyError "parameterGroups")
    end.
Proof.
  unfold ServerTemplateData.__init__. cbn.
  destruct (body !! "parameters"); cbn; [| reflexivity].
  destruct (body !! "conditions"); cbn; [| reflexivity].
  destruct (body !! "version"); cbn; [| reflexivity].
  destruct (body !! "parameterGroups"); reflexivity.
Qed.

(** C5.  Building a [ServerTemplateData] from a JSON object that lacks one
    of "parameters", "conditions", "version", "parameterGroups" raises at
    once, the [KeyError] of a missing required field.  With all four there
    it succeeds and stores them, and the etag is what the headers hold
    under "ETag": absent when the header is. *)
Theorem template_data_requires_fields
    (headers : gmap string string) (body : gmap string value) :
  (forall field : string,
      In field required_fields -> body !! field = None ->
      exists missing : string,
        In missing required_fields /\ body !! missing = None
        /\ ServerTemplateData.__init__ headers (VDict body) = Raise (KeyError missing))
  /\ (forall p c v g : value,
        body !! "parameters" = Some p -> body !! "conditions" = Some c ->
        body !! "version" = Some v -> body !! "parameterGroups" = Some g ->
        ServerTemplateData.__init__ headers (VDict body)
        = Ok {| ServerTemplateData._parameters := p;
                ServerTemplateData._conditions := c;
                ServerTemplateData._version := v;
                ServerTemplateData._parameter_groups := g;
                ServerTemplateData._etag := headers !! "ETag" |}
        /\ (headers !! "ETag" = None ->
            exists data,
              ServerTemplateData.__init__ headers (VDict body) = Ok data
              /\ ServerTemplateData.etag data = None)).
Proof.
  split.
  - intros field Hin Hmissing.
    rewrite template_data_init_dict.
    destruct (body !! "parameters") eqn:Hp;
      [| exists "parameters"; cbn; auto].
    destruct (body !! "conditions") eqn:Hc;
      [| exists "conditions"; cbn; auto].
    destruct (body !! "version") eqn:Hv;
      [| exists "version"; cbn; auto].
    destruct (body !! "parameterGroups") eqn:Hg;
      [| exists "parameterGroups"; cbn; auto 6].
    exfalso. cbn in Hin.
    destruct Hin as [<- | [<- | [<- | [<- | []]]]]; congruence.
  - intros p c v g Hp Hc Hv Hg.
    rewrite template_data_init_dict, Hp, Hc, Hv, Hg.
    split; [reflexivity |].
    intros Hetag. eexists. split; [reflexivity |]. exact Hetag.
Qed.

Lemma template_data_requires_fields_witness :
  (In "version" required_fields
   /\ (delete "version" welcome_body : gmap string value) !! "version" = None
   /\ exists missing : string,
       In missing required_fields
       /\ (delete "version" welcome_body : gmap string value) !! missing = None
       /\ ServerTemplateData.__init__ ∅ (VDict (delete "version" welcome_body))
          = Raise (KeyError missing))
  /\ (welcome_body !! "parameters" = Some welcome_parameters
      /\ welcome_body !! "conditions" = Some (VList [])
      /\ welcome_body !! "version" = Some (VDict ∅)
      /\ welcome_body !! "parameterGroups" = Some (VDict ∅)
      /\ (∅ : gmap string string) !! "ETag" = None
      /\ exists data,
          ServerTemplateData.__init__ ∅ (VDict welcome_body) = Ok data
          /\ ServerTemplateData.etag data = None).
Proof.
  split.
  - split; [cbn; auto |]. split; [vm_compute; reflexivity |].
    apply (proj1 (template_data_requires_fields ∅ (delete "version" welcome_body))
             "version").
    + cbn; auto.
    + vm_compute; reflexivity.
  - repeat (split; [vm_compute; reflexivity |]).
    apply (proj2 (template_data_requires_fields ∅ welcome_body)
             welcome_parameters (VList []) (VDict ∅) (VDict ∅));
      vm_compute; reflexivity.
Defined.

(** ** Reading an evaluated configuration *)

(** C4.  [get_value] raises exactly when the key is not in the value map,
    and then it is the [KeyError] of that key; a key that is there yields
    its value as stored.  The accessor only reads: it is a function of the
    configuration and hands back no changed one. *)
Theorem get_value_raises_iff_missing (config : ServerConfig.t) (key : string) :
  (returns (ServerConfig.get_value config key) = false
   <-> ServerConfig._config_values config !! key = None)
  /\ (ServerConfig.get_value config key = Raise (KeyError key)
      <-> ServerConfig._config_values config !! key = None)
  /\ (forall v : value,
        ServerConfig._config_values config !! key = Some v ->
        ServerConfig.get_value config key = Ok v).
Proof.
  unfold ServerConfig.get_value.
  destruct (ServerConfig._config_values config !! key) as [v |]; cbn.
  - repeat split; try discriminate. intros v' [= ->]. reflexivity.
  - repeat split; try discriminate; reflexivity.
Qed.

Lemma get_value_raises_iff_missing_witness :
  ServerConfig._config_values (ServerConfig.__init__ {[ "welcome_msg" := VStr "hi" ]})
    !! "welcome_msg" = Some (VStr "hi")
  /\ ServerConfig.get_value (ServerConfig.__init__ {[ "welcome_msg" := VStr "hi" ]})
       "welcome_msg" = Ok (VStr "hi").
Proof.
  split.
  - vm_compute; reflexivity.
  - apply (proj2 (proj2 (get_value_raises_iff_missing
                           (ServerConfig.__init__ {[ "welcome_msg" := VStr "hi" ]})
                           "welcome_msg"))).
    vm_compute; reflexivity.
Defined.

(** C10.  On a key bound to a string, [get_boolean] answers [true] exactly
    when the string is not empty: "false" and "0" come out [true], only
    the empty string comes out [false]. *)
Theorem get_boolean_of_string (config : ServerConfig.t) (key s : string) :
  ServerConfig._config_values config !! key = Some (VStr s) ->
  ServerConfig.get_boolean config key = Ok (negb (String.eqb s ""))
  /\ (ServerConfig.get_boolean config key = Ok true <-> s <> "")
  /\ (ServerConfig.get_boolean config key = Ok false <-> s = "").
Proof.
  intros Hkey. unfold ServerConfig.get_boolean.
  rewrite (get_value_present _ _ _ Hkey). cbn.
  destruct (String.eqb_spec s "") as [-> | Hne]; cbn.
  - repeat split; try discriminate; try reflexivity. intros H; now elim H.
  - repeat split; try discriminate; try reflexivity; intros; try assumption.
    + congruence.
Qed.

Lemma get_boolean_of_string_witness :
  ServerConfig._config_values (ServerConfig.__init__ {[ "flag" := VStr "false" ]})
    !! "flag" = Some (VStr "false")
  /\ ServerConfig.get_boolean (ServerConfig.__init__ {[ "flag" := VStr "false" ]}) "flag"
     = Ok true.
Proof.
  split.
  - vm_compute; reflexivity.
  - refine (proj1 (get_boolean_of_string
                     (ServerConfig.__init__ {[ "flag" := VStr "false" ]})
                     "flag" "false" _)).
    vm_compute; reflexivity.
Defined.

Example get_boolean_zero_string :
  ServerConfig.get_boolean (ServerConfig.__init__ {[ "flag" := VStr "0" ]}) "flag" = Ok true.
Proof. vm_compute; reflexivity. Qed.

Example get_boolean_empty_string :
  ServerConfig.get_boolean (ServerConfig.__init__ {[ "flag" := VStr "" ]}) "flag" = Ok false.
Proof. vm_compute; reflexivity. Qed.

(** ** Evaluation *)

(** C8 (what the code does).  The condition evaluator computes no truth
    value: whatever conditions and context it is built on, in either
    argument order, its result has no entry under any name, so an AND over
    no children is not mapped to true and an OR over no children is not
    mapped to false. *)
Theorem condition_evaluator_yields_no_truth_value (context conditions : value) (name : string) :
  _ConditionEvaluator.evaluate (_ConditionEvaluator.__init__ context conditions) !! name = None
  /\ _ConditionEvaluator.evaluate (_ConditionEvaluator.__init__ conditions context) !! name = None
  /\ _ConditionEvaluator.evaluate (_ConditionEvaluator.__init__ (VDict ∅) empty_combinators)
       !! "all_of_nothing" <> Some (VBool true)
  /\ _ConditionEvaluator.evaluate (_ConditionEvaluator.__init__ (VDict ∅) empty_combinators)
       !! "any_of_nothing" <> Some (VBool false).
Proof.
  unfold _ConditionEvaluator.evaluate.
  rewrite !lookup_empty. repeat split; discriminate.
Qed.

Section EvaluationFacts.
Context `{!Builtins}.

(** C9.  On a template with a cached [ServerTemplateData], whatever it
    holds and whatever defaults the template was made with, [evaluate]
    returns for every context a configuration with the empty value map,
    on which all four accessors raise the [KeyError] of the key asked
    for. *)
Theorem evaluate_loaded_is_empty
    (self : ServerTemplate.t) (t : ServerTemplateData.t) (context : value) :
  ServerTemplate._cache self = OTemplateData t ->
  exists config self',
    ServerTemplate.evaluate context self = (Ok config, self')
    /\ ServerConfig._config_values config = ∅
    /\ forall key : string,
        ServerConfig.get_value config key = Raise (KeyError key)
        /\ ServerConfig.get_boolean config key = Raise (KeyError key)
        /\ ServerConfig.get_string config key = Raise (KeyError key)
        /\ ServerConfig.get_int config key = Raise (KeyError key).
Proof.
  intros Hcache. rewrite (evaluate_cached _ _ _ Hcache).
  eexists. eexists. split; [reflexivity |]. split; [reflexivity |].
  intros key.
  unfold ServerConfig.get_boolean, ServerConfig.get_string, ServerConfig.get_int.
  rewrite get_value_empty. repeat split; reflexivity.
Qed.

(** C1 (what the code does).  In the spec's scenario, a template holding
    [welcome_template], evaluated on the empty context, [get_string] of
    "welcome_msg" raises [KeyError] and does not return "hi". *)
Theorem welcome_msg_scenario_raises (self : ServerTemplate.t) :
  (config <- fst (ServerTemplate.evaluate (VDict ∅)
                    (snd (ServerTemplate.set (OTemplateData welcome_template) self)));;
   ServerConfig.get_string config "welcome_msg")
  = Raise (KeyError "welcome_msg")
  /\ (config <- fst (ServerTemplate.evaluate (VDict ∅)
                       (snd (ServerTemplate.set (OTemplateData welcome_template) self)));;
      ServerConfig.get_string config "welcome_msg")
     <> Ok "hi".
Proof.
  rewrite set_template_data. cbn [snd].
  rewrite (evaluate_cached _ welcome_template) by reflexivity.
  cbn [fst]. rewrite bind_Ok.
  unfold ServerConfig.get_string. rewrite get_value_empty. cbn.
  split; [reflexivity | discriminate].
Qed.
End EvaluationFacts.

Lemma evaluate_loaded_is_empty_witness :
  ServerTemplate._cache
    (@init_server_template sample_sdk sample_builtins sample_app
       (Some [("welcome_msg", "hello")]) (OTemplateData welcome_template))
  = OTemplateData welcome_template
  /\ exists config self',
      ServerTemplate.evaluate (VDict ∅)
        (@init_server_template sample_sdk sample_builtins sample_app
           (Some [("welcome_msg", "hello")]) (OTemplateData welcome_template))
      = (Ok config, self')
      /\ ServerConfig._config_values config = ∅
      /\ forall key : string,
          ServerConfig.get_value config key = Raise (KeyError key)
          /\ ServerConfig.get_boolean config key = Raise (KeyError key)
          /\ @ServerConfig.get_string sample_builtins config key = Raise (KeyError key)
          /\ @ServerConfig.get_int sample_builtins config key = Raise (KeyError key).
Proof.
  split.
  - reflexivity.
  - apply (@evaluate_loaded_is_empty sample_builtins
             (@init_server_template sample_sdk sample_builtins sample_app
                (Some [("welcome_msg", "hello")]) (OTemplateData welcome_template))
             welcome_template (VDict ∅)).
    reflexivity.
Defined.

(** * Further properties of the module *)

(** ** Strings *)

Lemma string_app_cons (x : Ascii.ascii) (a b : string) :
  String x a ++ b = String x (a ++ b).
Proof. reflexivity. Qed.

Lemma string_length_app (a b : string) :
  String.length (a ++ b) = String.length a + String.length b.
Proof.
  induction a as [| x a IH]; [reflexivity |].
  rewrite string_app_cons. simpl. now rewrite IH.
Qed.

Lemma string_prefix_app (a b : string) : String.prefix a (a ++ b) = true.
Proof.
  induction a as [| x a IH].
  - destruct b; reflexivity.
  - rewrite string_app_cons. simpl.
    destruct (Ascii.ascii_dec x x) as [_ | Hne]; [exact IH | now elim Hne].
Qed.

Lemma string_app_inv_head (a b c : string) : a ++ b = a ++ c -> b = c.
Proof.
  induction a as [| x a IH]; intros H; [exact H |].
  rewrite !string_app_cons in H. injection H as H. now apply IH.
Qed.

Lemma string_app_assoc (a b c : string) : (a ++ b) ++ c = a ++ (b ++ c).
Proof.
  induction a as [| x a IH]; [reflexivity |].
  rewrite !string_app_cons. now rewrite IH.
Qed.

(** ** ServerTemplateData *)

(** X1.  A response body that is not a JSON object (null, a boolean, a
    number, a string or an array) never yields template data: the first
    subscript raises [TypeError]. *)
Theorem template_data_rejects_non_object
    (headers : gmap string string) (response_json : value) :
  is_dict response_json = false ->
  exists msg : string,
    ServerTemplateData.__init__ headers response_json = Raise (TypeError msg).
Proof.
  intros Hshape.
  destruct response_json; cbn in *; try discriminate; eexists; reflexivity.
Qed.

Lemma template_data_rejects_non_object_witness :
  is_dict (VList []) = false
  /\ exists msg : string,
      ServerTemplateData.__init__ ∅ (VList []) = Raise (TypeError msg).
Proof.
  split.
  - reflexivity.
  - apply (template_data_rejects_non_object ∅ (VList [])). reflexivity.
Defined.

Lemma not_required_field (field : string) :
  ~ In field required_fields ->
  field <> "parameters" /\ field <> "conditions"
  /\ field <> "version" /\ field <> "parameterGroups".
Proof.
  intros Hout. repeat split; intros ->; apply Hout; cbn; auto.
Qed.

(** X2.  Only the four required fields of the body and the [ETag] header
    are read: adding, changing or removing any other field of the body,
    or changing any other header, leaves the outcome (the template data
    or the error) the same. *)
Theorem template_data_ignores_other_fields
    (headers headers' : gmap string string) (body : gmap string value)
    (field : string) (v : value) :
  ~ In field required_fields ->
  headers' !! "ETag" = headers !! "ETag" ->
  ServerTemplateData.__init__ headers' (VDict (<[field := v]> body))
  = ServerTemplateData.__init__ headers (VDict body)
  /\ ServerTemplateData.__init__ headers' (VDict (delete field body))
     = ServerTemplateData.__init__ headers (VDict body).
Proof.
  intros Hout Hetag.
  destruct (not_required_field field Hout) as (Hp & Hc & Hv & Hg).
  rewrite !template_data_init_dict, Hetag.
  rewrite !lookup_insert_ne, !lookup_delete_ne by assumption.
  split; reflexivity.
Qed.

Lemma template_data_ignores_other_fields_witness :
  ~ In "debug" required_fields
  /\ ({[ "Date" := "today" ]} : gmap string string) !! "ETag"
     = (∅ : gmap string string) !! "ETag"
  /\ ServerTemplateData.__init__ {[ "Date" := "today" ]}
       (VDict (<[ "debug" := VBool true ]> welcome_body))
     = ServerTemplateData.__init__ ∅ (VDict welcome_body).
Proof.
  assert (Hout : ~ In "debug" required_fields).
  { cbn. intros [H | [H | [H | [H | []]]]]; discriminate. }
  split; [exact Hout |]. split; [vm_compute; reflexivity |].
  refine (proj1 (template_data_ignores_other_fields
                   ∅ {[ "Date" := "today" ]} welcome_body "debug" (VBool true) Hout _)).
  vm_compute; reflexivity.
Defined.

(** X3.  Template data that was built from a JSON object gives back, through
    its read-only properties, exactly the four fields of that object, and
    through [etag] what the headers hold under [ETag]; so construction
    succeeds only when all four fields are there. *)
Theorem template_data_fields_round_trip
    (headers : gmap string string) (body : gmap string value)
    (data : ServerTemplateData.t) :
  ServerTemplateData.__init__ headers (VDict body) = Ok data ->
  body !! "parameters" = Some (ServerTemplateData.parameters data)
  /\ body !! "conditions" = Some (ServerTemplateData.conditions data)
  /\ body !! "version" = Some (ServerTemplateData.version data)
  /\ body !! "parameterGroups" = Some (ServerTemplateData.parameter_groups data)
  /\ ServerTemplateData.etag data = headers !! "ETag".
Proof.
  rewrite template_data_init_dict.
  destruct (body !! "parameters"); [| discriminate].
  destruct (body !! "conditions"); [| discriminate].
  destruct (body !! "version"); [| discriminate].
  destruct (body !! "parameterGroups"); [| discriminate].
  intros [= <-]. repeat split; reflexivity.
Qed.

Lemma template_data_fields_round_trip_witness :
  ServerTemplateData.__init__ {[ "ETag" := "etag-1" ]} (VDict welcome_body)
  = Ok welcome_template
  /\ welcome_body !! "parameters" = Some (ServerTemplateData.parameters welcome_template)
  /\ ServerTemplateData.etag welcome_template
     = ({[ "ETag" := "etag-1" ]} : gmap string string) !! "ETag".
Proof.
  assert (Hbuilt : ServerTemplateData.__init__ {[ "ETag" := "etag-1" ]} (VDict welcome_body)
                   = Ok welcome_template) by (vm_compute; reflexivity).
  split; [exact Hbuilt |].
  pose proof (template_data_fields_round_trip _ _ _ Hbuilt) as (Hp & _ & _ & _ & He).
  split; [exact Hp | exact He].
Defined.

(** ** _RemoteConfigService *)

Section ServiceRequests.
Context `{!Sdk}.

(** [get_server_template] sends one "get" request, to
    [server_template_url], and builds the template data from the answer. *)
Lemma get_server_template_request (svc : _RemoteConfigService.t) :
  _RemoteConfigService.get_server_template svc
  = (response <- headers_and_body (_RemoteConfigService._client svc) "get"
                   (server_template_url svc);;
     ServerTemplateData.__init__ (fst response) (snd response)).
Proof.
  unfold _RemoteConfigService.get_server_template, server_template_url.
  destruct (headers_and_body _ _ _) as [[headers response_json] | e]; reflexivity.
Qed.

(** X4.  The service neither retries nor wraps: an exception raised by the
    transport is the exception [get_server_template] raises. *)
Theorem service_fetch_propagates_transport_error
    (svc : _RemoteConfigService.t) (e : exception) :
  headers_and_body (_RemoteConfigService._client svc) "get" (server_template_url svc)
  = Raise e ->
  _RemoteConfigService.get_server_template svc = Raise e.
Proof.
  intros Hfetch. rewrite get_server_template_request, Hfetch. reflexivity.
Qed.

(** X5.  When the transport answers with a JSON object, the service returns
    template data holding the object's four fields and the [ETag] header
    if all four are there, and raises the [KeyError] of a missing required
    field otherwise. *)
Theorem service_fetch_builds_template
    (svc : _RemoteConfigService.t)
    (headers : gmap string string) (body : gmap string value) :
  headers_and_body (_RemoteConfigService._client svc) "get" (server_template_url svc)
  = Ok (headers, VDict body) ->
  (forall p c v g : value,
      body !! "parameters" = Some p -> body !! "conditions" = Some c ->
      body !! "version" = Some v -> body !! "parameterGroups" = Some g ->
      _RemoteConfigService.get_server_template svc
      = Ok {| ServerTemplateData._parameters := p;
              ServerTemplateData._conditions := c;
              ServerTemplateData._version := v;
              ServerTemplateData._parameter_groups := g;
              ServerTemplateData._etag := headers !! "ETag" |})
  /\ (forall field : string,
        In field required_fields -> body !! field = None ->
        exists missing : string,
          In missing required_fields /\ body !! missing = None
          /\ _RemoteConfigService.get_server_template svc = Raise (KeyError missing)).
Proof.
  intros Hfetch. rewrite get_server_template_request, Hfetch. cbn [bind fst snd].
  rewrite template_data_init_dict. split.
  - intros p c v g Hp Hc Hv Hg. rewrite Hp, Hc, Hv, Hg. reflexivity.
  - intros field Hin Hmissing.
    destruct (body !! "parameters") eqn:Hp;
      [| exists "parameters"; cbn; auto].
    destruct (body !! "conditions") eqn:Hc;
      [| exists "conditions"; cbn; auto].
    destruct (body !! "version") eqn:Hv;
      [| exists "version"; cbn; auto].
    destruct (body !! "parameterGroups") eqn:Hg;
      [| exists "parameterGroups"; cbn; auto 6].
    exfalso. cbn in Hin.
    destruct Hin as [<- | [<- | [<- | [<- | []]]]]; congruence.
Qed.

(** X6.  The url requested begins with the project prefix
    [/v1/projects/<project id>/namespaces/], but it is not the prefix
    followed by [/namespaces/firebase-server/serverRemoteConfig]: the
    continued string literal puts 64 blanks into the path, whatever the
    project. *)
Theorem service_request_url (svc : _RemoteConfigService.t) :
  String.prefix ("/v1/projects/" ++ _RemoteConfigService._project_id svc ++ "/namespaces/")
    (server_template_url svc) = true
  /\ server_template_url svc
     <> _RemoteConfigService._get_url_prefix svc ++ intended_template_path
  /\ String.length (server_template_url svc)
     = String.length (_RemoteConfigService._get_url_prefix svc ++ intended_template_path) + 64
  /\ _RemoteConfigService.get_server_template svc
     = (response <- headers_and_body (_RemoteConfigService._client svc) "get"
                      (server_template_url svc);;
        ServerTemplateData.__init__ (fst response) (snd response)).
Proof.
  split; [| split; [| split]].
  - unfold server_template_url, _RemoteConfigService._get_url_prefix.
    change _RemoteConfigService.server_template_path
      with ("/namespaces/" ++
            (" " ++ "                                                               "
                 ++ "firebase-server/serverRemoteConfig")).
    rewrite <- (string_app_assoc _ "/namespaces/" _).
    rewrite (string_app_assoc "/v1/projects/" _ "/namespaces/").
    apply string_prefix_app.
  - unfold server_template_url. intros Heq.
    apply string_app_inv_head in Heq. discriminate Heq.
  - unfold server_template_url. rewrite !string_length_app, <- Nat.add_assoc.
    f_equal.
  - apply get_server_template_request.
Qed.

End ServiceRequests.

Lemma service_fetch_propagates_transport_error_witness :
  @headers_and_body unreachable_sdk
    (_RemoteConfigService._client (@_RemoteConfigService.__init__ unreachable_sdk sample_app))
    "get"
    (server_template_url (@_RemoteConfigService.__init__ unreachable_sdk sample_app))
  = Raise (FetchError "503 Service Unavailable")
  /\ @_RemoteConfigService.get_server_template unreachable_sdk
       (@_RemoteConfigService.__init__ unreachable_sdk sample_app)
     = Raise (FetchError "503 Service Unavailable").
Proof.
  split.
  - reflexivity.
  - apply (@service_fetch_propagates_transport_error unreachable_sdk
             (@_RemoteConfigService.__init__ unreachable_sdk sample_app)
             (FetchError "503 Service Unavailable")).
    reflexivity.
Defined.

Lemma service_fetch_builds_template_witness :
  (@headers_and_body sample_sdk
    (_RemoteConfigService._client (@_RemoteConfigService.__init__ sample_sdk sample_app))
    "get"
    (server_template_url (@_RemoteConfigService.__init__ sample_sdk sample_app))
  = Ok ({[ "ETag" := "etag-1" ]}, VDict welcome_body)
  /\ @_RemoteConfigService.get_server_template sample_sdk
       (@_RemoteConfigService.__init__ sample_sdk sample_app)
     = Ok {| ServerTemplateData._parameters := welcome_parameters;
             ServerTemplateData._conditions := VList [];
             ServerTemplateData._version := VDict ∅;
             ServerTemplateData._parameter_groups := VDict ∅;
             ServerTemplateData._etag :=
               ({[ "ETag" := "etag-1" ]} : gmap string string) !! "ETag" |})
  /\ (@headers_and_body versionless_sdk
    (_RemoteConfigService._client (@_RemoteConfigService.__init__ versionless_sdk sample_app))
    "get"
    (server_template_url (@_RemoteConfigService.__init__ versionless_sdk sample_app))
  = Ok (∅, VDict (delete "version" welcome_body))
  /\ In "version" required_fields
  /\ (delete "version" welcome_body : gmap string value) !! "version" = None
  /\ exists missing : string,
      In missing required_fields
      /\ (delete "version" welcome_body : gmap string value) !! missing = None
      /\ @_RemoteConfigService.get_server_template versionless_sdk
           (@_RemoteConfigService.__init__ versionless_sdk sample_app)
         = Raise (KeyError missing)).
Proof.
  split.
  {
    split.
    - reflexivity.
    - refine (proj1 (@service_fetch_builds_template sample_sdk
                       (@_RemoteConfigService.__init__ sample_sdk sample_app)
                       {[ "ETag" := "etag-1" ]} welcome_body _)
                welcome_parameters (VList []) (VDict ∅) (VDict ∅) _ _ _ _);
        vm_compute; reflexivity.
  }
  {
    split; [reflexivity |]. split; [cbn; auto |]. split; [vm_compute; reflexivity |].
    refine (proj2 (@service_fetch_builds_template versionless_sdk
                     (@_RemoteConfigService.__init__ versionless_sdk sample_app)
                     ∅ (delete "version" welcome_body) _)
              "version" _ _).
    - reflexivity.
    - cbn; auto.
    - vm_compute; reflexivity.
  }
Defined.




(** ** ServerTemplate under sequences of calls *)

Lemma last_accepted_app (cs cs' : list template_call) (cache : object) :
  last_accepted (cs ++ cs')%list cache = last_accepted cs' (last_accepted cs cache).
Proof. unfold last_accepted. apply fold_left_app. Qed.

(** What is kept is template data exactly when the cache was, or when some
    call of [set] was given template data. *)
Lemma last_accepted_is_template_data (cs : list template_call) (cache : object) :
  isinstance_ServerTemplateData (last_accepted cs cache) = true
  <-> isinstance_ServerTemplateData cache = true
      \/ exists t, In (CallSet (OTemplateData t)) cs.
Proof.
  revert cache. induction cs as [| c cs IH]; intros cache.
  - cbn. split; [auto | intros [H | [t []]]; exact H].
  - change (last_accepted (c :: cs) cache)
      with (last_accepted cs
              match c with
              | CallSet (OTemplateData t) => OTemplateData t
              | _ => cache
              end).
    rewrite IH. split.
    + intros [Hnow | [t Hlater]].
      * destruct c as [[v | t] | context |]; cbn in Hnow; eauto.
        right. exists t. now left.
      * right. exists t. now right.
    + intros [Hbefore | [t [-> | Hlater]]].
      * destruct c as [[v | t] | context |]; cbn; auto.
      * left. reflexivity.
      * right. eauto.
Qed.

Lemma state_of_LOADED (self : ServerTemplate.t) :
  state_of self = LOADED
  <-> isinstance_ServerTemplateData (ServerTemplate._cache self) = true.
Proof.
  unfold state_of. destruct (ServerTemplate._cache self); cbn; split;
    (discriminate || reflexivity).
Qed.

(** The outcome of [evaluate] is decided by the cache alone. *)
Lemma evaluate_outcome_by_cache (a b : ServerTemplate.t) (context : value) :
  ServerTemplate._cache a = ServerTemplate._cache b ->
  fst (ServerTemplate.evaluate context a) = fst (ServerTemplate.evaluate context b).
Proof.
  intros Hcache. unfold ServerTemplate.evaluate. rewrite Hcache.
  destruct (getattr_conditions (ServerTemplate._cache b)); reflexivity.
Qed.

Section CallFacts.
Context `{!Sdk}.

Lemma perform_cache (c : template_call) (self : ServerTemplate.t) :
  ServerTemplate._cache (perform c self) = last_accepted [c] (ServerTemplate._cache self).
Proof.
  destruct c as [[v | t] | context |]; cbn; try reflexivity.
  unfold ServerTemplate.evaluate.
  destruct (getattr_conditions (ServerTemplate._cache self)); reflexivity.
Qed.

Lemma perform_frame (c : template_call) (self : ServerTemplate.t) :
  ServerTemplate._rc_service (perform c self) = ServerTemplate._rc_service self
  /\ ServerTemplate._stringified_default_config (perform c self)
     = ServerTemplate._stringified_default_config self.
Proof.
  destruct c as [[v | t] | context |]; cbn; try (split; reflexivity).
  unfold ServerTemplate.evaluate.
  destruct (getattr_conditions (ServerTemplate._cache self)); split; reflexivity.
Qed.

Lemma perform_all_cache (cs : list template_call) (self : ServerTemplate.t) :
  ServerTemplate._cache (perform_all cs self) = last_accepted cs (ServerTemplate._cache self).
Proof.
  revert self. induction cs as [| c cs IH]; intros self; [reflexivity |].
  change (perform_all (c :: cs) self) with (perform_all cs (perform c self)).
  rewrite IH, perform_cache. reflexivity.
Qed.

(** X8.  After any sequence of [set], [evaluate] and [load] calls the cache
    is the last [ServerTemplateData] that was given to [set], or the cache
    the template started with when there was none; the service and the
    stringified default config are never touched. *)
Theorem cache_after_calls (cs : list template_call) (self : ServerTemplate.t) :
  ServerTemplate._cache (perform_all cs self) = last_accepted cs (ServerTemplate._cache self)
  /\ ServerTemplate._rc_service (perform_all cs self) = ServerTemplate._rc_service self
  /\ ServerTemplate._stringified_default_config (perform_all cs self)
     = ServerTemplate._stringified_default_config self.
Proof.
  split; [apply perform_all_cache |].
  revert self. induction cs as [| c cs IH]; intros self; [split; reflexivity |].
  change (perform_all (c :: cs) self) with (perform_all cs (perform c self)).
  destruct (IH (perform c self)) as [Hsvc Hcfg].
  destruct (perform_frame c self) as [Hsvc1 Hcfg1].
  split; congruence.
Qed.

(** X9.  A template is LOADED after a sequence of calls exactly when it was
    LOADED before or one of the calls was [set] with a
    [ServerTemplateData]: nothing unloads a template ([set(None)] does
    not), and [load] and [evaluate] never load one. *)
Theorem loaded_after_calls (cs : list template_call) (self : ServerTemplate.t) :
  state_of (perform_all cs self) = LOADED
  <-> state_of self = LOADED \/ exists t, In (CallSet (OTemplateData t)) cs.
Proof.
  rewrite !state_of_LOADED, perform_all_cache.
  apply last_accepted_is_template_data.
Qed.

(** X10.  Calls made earlier leave no trace in what [evaluate] returns:
    after any calls, it returns what it would return on a template whose
    cache is the last accepted template data, and an evaluation changes
    nothing a later one sees. *)
Theorem evaluate_after_calls
    (cs : list template_call) (self : ServerTemplate.t) (context context' : value) :
  fst (ServerTemplate.evaluate context (perform_all cs self))
  = fst (ServerTemplate.evaluate context
           (ServerTemplate.with_cache self (last_accepted cs (ServerTemplate._cache self))))
  /\ ServerTemplate.evaluate context' (snd (ServerTemplate.evaluate context self))
     = ServerTemplate.evaluate context' self
  /\ ServerTemplate._cache (snd (ServerTemplate.evaluate context self))
     = ServerTemplate._cache self.
Proof.
  split; [| split].
  - apply evaluate_outcome_by_cache. rewrite perform_all_cache. reflexivity.
  - unfold ServerTemplate.evaluate.
    destruct (getattr_conditions (ServerTemplate._cache self)) eqn:Hcond; cbn.
    + rewrite Hcond. reflexivity.
    + rewrite Hcond. reflexivity.
  - exact (perform_cache (CallEvaluate context) self).
Qed.
End CallFacts.

(** ** Construction and seeding *)

Section SeedingFacts.
Context `{!Sdk} `{!Builtins}.

Lemma init_server_template_cache app default_config default_config' template_data :
  ServerTemplate._cache (init_server_template app default_config template_data)
  = ServerTemplate._cache (init_server_template app default_config' template_data).
Proof.
  unfold init_server_template.
  destruct template_data as [[] | t]; reflexivity.
Qed.

(** X11.  The default config given at construction is never used: two
    templates that differ only in it hold the same cache after the same
    calls, and [evaluate] returns the same on both, for every seed, every
    sequence of calls and every context. *)
Theorem default_config_never_used
    (app : App) (default_config default_config' : option (list (string * string)))
    (template_data : object) (cs : list template_call) (context : value) :
  ServerTemplate._cache
    (perform_all cs (init_server_template app default_config template_data))
  = ServerTemplate._cache
      (perform_all cs (init_server_template app default_config' template_data))
  /\ fst (ServerTemplate.evaluate context
            (perform_all cs (init_server_template app default_config template_data)))
     = fst (ServerTemplate.evaluate context
              (perform_all cs (init_server_template app default_config' template_data))).
Proof.
  assert (Hcache :
    ServerTemplate._cache
      (perform_all cs (init_server_template app default_config template_data))
    = ServerTemplate._cache
        (perform_all cs (init_server_template app default_config' template_data))).
  { rewrite !perform_all_cache.
    now rewrite (init_server_template_cache app default_config default_config'). }
  split; [exact Hcache |].
  now apply evaluate_outcome_by_cache.
Qed.

(** X12.  Seeding is [set]: for every [template_data], [None] included,
    [init_server_template] returns what constructing an unseeded template
    and calling [set(template_data)] on it gives.  A seed that is not a
    [ServerTemplateData] (a decoded JSON body, say) is therefore dropped
    without an error: the template is EMPTY and [evaluate] raises on it. *)
Theorem init_server_template_is_set
    (app : App) (default_config : option (list (string * string)))
    (template_data : object) :
  ServerTemplate.set template_data (init_server_template app default_config None_)
  = (Ok tt, init_server_template app default_config template_data)
  /\ (forall (v : value) (context : value),
        template_data = OValue v ->
        state_of (init_server_template app default_config template_data) = EMPTY
        /\ fst (ServerTemplate.evaluate context
                  (init_server_template app default_config template_data))
           = Raise (AttributeError "NoneType" "conditions")).
Proof.
  split.
  - destruct template_data as [[] | t]; reflexivity.
  - intros v context ->. rewrite init_server_template_other_value.
    split; reflexivity.
Qed.
End SeedingFacts.

Lemma init_server_template_is_set_witness :
  OValue (VDict welcome_body) = OValue (VDict welcome_body)
  /\ state_of (@init_server_template sample_sdk sample_builtins sample_app None
                 (OValue (VDict welcome_body))) = EMPTY
  /\ fst (ServerTemplate.evaluate (VDict ∅)
            (@init_server_template sample_sdk sample_builtins sample_app None
               (OValue (VDict welcome_body))))
     = Raise (AttributeError "NoneType" "conditions").
Proof.
  split; [reflexivity |].
  exact (proj2 (@init_server_template_is_set sample_sdk sample_builtins sample_app None
                  (OValue (VDict welcome_body)))
           (VDict welcome_body) (VDict ∅) eq_refl).
Defined.

(** ** The evaluator that [evaluate] records *)

(** X13.  [evaluate] on a template with cached template data stores an
    evaluator whose [_context] is the template's conditions and whose
    [_conditions] is the caller's context: the constructor takes
    [(context, conditions)] and is called with the conditions first. *)
Theorem evaluator_arguments_swapped
    (self : ServerTemplate.t) (t : ServerTemplateData.t) (context : value) :
  ServerTemplate._cache self = OTemplateData t ->
  exists evaluator,
    ServerTemplate._evaluator (snd (ServerTemplate.evaluate context self)) = Some evaluator
    /\ _ConditionEvaluator._context evaluator = ServerTemplateData.conditions t
    /\ _ConditionEvaluator._conditions evaluator = context.
Proof.
  intros Hcache. rewrite (evaluate_cached _ _ _ Hcache). cbn.
  eexists. repeat split; reflexivity.
Qed.

Lemma evaluator_arguments_swapped_witness :
  ServerTemplate._cache
    (@init_server_template sample_sdk sample_builtins sample_app None
       (OTemplateData welcome_template))
  = OTemplateData welcome_template
  /\ exists evaluator,
      ServerTemplate._evaluator
        (snd (ServerTemplate.evaluate (VDict {[ "user" := VStr "ada" ]})
                (@init_server_template sample_sdk sample_builtins sample_app None
                   (OTemplateData welcome_template))))
      = Some evaluator
      /\ _ConditionEvaluator._context evaluator
         = ServerTemplateData.conditions welcome_template
      /\ _ConditionEvaluator._conditions evaluator = VDict {[ "user" := VStr "ada" ]}.
Proof.
  split.
  - reflexivity.
  - apply (evaluator_arguments_swapped
             (@init_server_template sample_sdk sample_builtins sample_app None
                (OTemplateData welcome_template))
             welcome_template (VDict {[ "user" := VStr "ada" ]})).
    reflexivity.
Defined.

(** ** Typed accessors *)

Section AccessorFacts.
Context `{!Builtins}.

(** X14.  The typed accessors are [get_value] followed by a conversion: on
    a missing key all three raise the [KeyError] of that key before any
    conversion; on a present key [get_boolean] and [get_string] always
    return ([bool] and [str] of the stored value) and [get_int] returns or
    raises as [int] does on it. *)
Theorem accessors_follow_get_value (config : ServerConfig.t) (key : string) :
  (ServerConfig._config_values config !! key = None ->
   ServerConfig.get_boolean config key = Raise (KeyError key)
   /\ ServerConfig.get_string config key = Raise (KeyError key)
   /\ ServerConfig.get_int config key = Raise (KeyError key))
  /\ (forall v : value,
        ServerConfig._config_values config !! key = Some v ->
        ServerConfig.get_boolean config key = Ok (py_bool v)
        /\ ServerConfig.get_string config key = Ok (py_str v)
        /\ ServerConfig.get_int config key = py_int v).
Proof.
  unfold ServerConfig.get_boolean, ServerConfig.get_string, ServerConfig.get_int.
  split.
  - intros Hmissing. rewrite (get_value_missing _ _ Hmissing).
    repeat split; reflexivity.
  - intros v Hpresent. rewrite (get_value_present _ _ _ Hpresent).
    repeat split; reflexivity.
Qed.
End AccessorFacts.

Lemma accessors_follow_get_value_witness :
  ServerConfig._config_values (ServerConfig.__init__ {[ "limit" := VInt 7 ]}) !! "limit"
  = Some (VInt 7)
  /\ @ServerConfig.get_int sample_builtins
       (ServerConfig.__init__ {[ "limit" := VInt 7 ]}) "limit" = Ok 7%Z
  /\ ServerConfig._config_values (ServerConfig.__init__ {[ "limit" := VInt 7 ]}) !! "size"
     = None
  /\ @ServerConfig.get_int sample_builtins
       (ServerConfig.__init__ {[ "limit" := VInt 7 ]}) "size" = Raise (KeyError "size").
Proof.
  assert (Hpresent :
    ServerConfig._config_values (ServerConfig.__init__ {[ "limit" := VInt 7 ]}) !! "limit"
    = Some (VInt 7)) by (vm_compute; reflexivity).
  assert (Hmissing :
    ServerConfig._config_values (ServerConfig.__init__ {[ "limit" := VInt 7 ]}) !! "size"
    = None) by (vm_compute; reflexivity).
  split; [exact Hpresent |]. split.
  - exact (proj2 (proj2 (proj2 (@accessors_follow_get_value sample_builtins
                                  (ServerConfig.__init__ {[ "limit" := VInt 7 ]}) "limit")
                           (VInt 7) Hpresent))).
  - split; [exact Hmissing |].
    exact (proj2 (proj2 (proj1 (@accessors_follow_get_value sample_builtins
                                  (ServerConfig.__init__ {[ "limit" := VInt 7 ]}) "size")
                           Hmissing))).
Defined.



